(** * OralB BLE advertisement parser: a shallow embedding of
      [src/oralb_ble/parser.py] and the properties of its decoder.

    The Python module is embedded as it is written: the module constants
    become Rocq constants of the same name, the two methods of
    [OralBBluetoothDeviceData] become computations in a small state and
    exception monad over the object's identity fields and the debug log. *)

From Stdlib Require Import ZArith Lia.
From Stdlib Require Import Strings.Ascii Strings.Byte Numbers.DecimalString.
From stdpp Require Import gmap strings list fin_maps.

Local Open Scope Z_scope.
Local Open Scope string_scope.

(** ** Python values *)

(** [bytes]: an immutable sequence of octets. *)
Abbreviation bytes := (list byte).

#[global] Instance byte_eq_decision : EqDecision byte := Byte.byte_eq_dec.

(** The integer value of one octet, [0 .. 255]. *)
Definition byte_val (b : byte) : Z := Z.of_N (Byte.to_N b).

(** The objects the parser handles: [int], [str] and the [set] of ints
    that the module binds to [ORALB_MANUFACTURER]. *)
Inductive pyval : Type :=
  | PyInt (n : Z)
  | PyStr (s : string)
  | PySet (elems : gset Z).

(** The exceptions that the operations used by the parser can raise. *)
Inductive exn : Type :=
  | TypeError      (* unhashable type *)
  | KeyError       (* dict subscript on a missing key *)
  | StructError.   (* struct.error: buffer of the wrong size *)

Inductive outcome (A : Type) : Type :=
  | Return (a : A)
  | Raise (e : exn).
Arguments Return {A} a.
Arguments Raise {A} e.

(** [str(n)] for an [int]: decimal digits with a leading minus sign for
    negative numbers. *)
Definition str (n : Z) : string := NilZero.string_of_int (Z.to_int n).

(** [seq[lo:hi]] for non-negative bounds: slicing clamps at the end of the
    sequence and never raises. *)
Definition slice {A : Type} (lo hi : nat) (l : list A) : list A :=
  take (hi - lo) (drop lo l).

(** [d.get(k, dflt)] on a dict with [int] keys. *)
Definition dict_get {V : Type} (d : gmap Z V) (k : Z) (dflt : V) : V :=
  default dflt (d !! k).

(** [k in d] on a dict with [int] keys.  The key is hashed first, so an
    unhashable key raises [TypeError] whatever the dict holds; a [str] is
    hashable and never equal to an [int] key. *)
Definition dict_contains {V : Type} (k : pyval) (d : gmap Z V) : outcome bool :=
  match k with
  | PyInt n => Return (bool_decide (is_Some (d !! n)))
  | PyStr _ => Return false
  | PySet _ => Raise TypeError
  end.

(** [d[k]] on a dict with [int] keys. *)
Definition dict_getitem {V : Type} (d : gmap Z V) (k : pyval) : outcome V :=
  match k with
  | PyInt n => match d !! n with Some v => Return v | None => Raise KeyError end
  | PyStr _ => Raise KeyError
  | PySet _ => Raise TypeError
  end.

(** ** [struct]: big-endian unpacking without padding *)

Inductive fmt_code : Type :=
  | fmt_B    (* unsigned char, 1 byte *)
  | fmt_H.   (* unsigned short, 2 bytes *)

Definition fmt_size (c : fmt_code) : nat :=
  match c with fmt_B => 1%nat | fmt_H => 2%nat end.

Definition calcsize (fmt : list fmt_code) : nat :=
  foldr (fun c n => (fmt_size c + n)%nat) 0%nat fmt.

(** [struct.Struct(">" + fmt).unpack(buf)]: the fields in order, most
    significant byte first; [None] stands for [struct.error], raised when
    the buffer is not exactly [calcsize fmt] bytes long. *)
Fixpoint unpack_be (fmt : list fmt_code) (buf : bytes) : option (list Z) :=
  match fmt, buf with
  | [], [] => Some []
  | [], _ :: _ => None
  | fmt_B :: fmt', b :: buf' =>
      cons (byte_val b) <$> unpack_be fmt' buf'
  | fmt_H :: fmt', hi :: lo :: buf' =>
      cons (Z.lor (Z.shiftl (byte_val hi) 8) (byte_val lo)) <$> unpack_be fmt' buf'
  | _ :: _, _ => None
  end.

(** [UNPACK_BBHBBBB = struct.Struct(">BBHBBBB").unpack], together with the
    destructuring of its 7-tuple. *)
Definition UNPACK_BBHBBBB (buf : bytes) : outcome (Z * Z * Z * Z * Z * Z * Z) :=
  match unpack_be [fmt_B; fmt_B; fmt_H; fmt_B; fmt_B; fmt_B; fmt_B] buf with
  | Some [state; pressure; counter; mode; sector; sector_timer; no_of_sectors] =>
      Return (state, pressure, counter, mode, sector, sector_timer, no_of_sectors)
  | _ => Raise StructError
  end.

(** ** Module constants *)

Inductive Models : Type :=
  | IOSerial7
  | SmartSeries7000.

#[global] Instance Models_eq_decision : EqDecision Models.
Proof. solve_decision. Defined.

Record ModelDescription : Type := {
  device_type : string;
  modes : gmap Z string;
}.

Definition DEVICE_TYPES (model : Models) : ModelDescription :=
  match model with
  | IOSerial7 =>
      {| device_type := "IO Serial 7";
         modes := list_to_map
           [ (0, "daily clean");
             (1, "sensitive");
             (2, "gum care");
             (3, "whiten");
             (4, "intense");
             (8, "settings") ] |}
  | SmartSeries7000 =>
      {| device_type := "Smart Series 7000";
         modes := list_to_map
           [ (0, "off");
             (1, "daily clean");
             (2, "sensitive");
             (3, "massage");
             (4, "whitening");
             (5, "deep clean");
             (6, "tongue cleaning");
             (7, "turbo");
             (255, "unknown") ] |}
  end.

Definition STATES : gmap Z string :=
  list_to_map
    [ (0, "unknown");
      (1, "initializing");
      (2, "idle");
      (3, "running");
      (4, "charging");
      (5, "setup");
      (6, "flight menu");
      (8, "selection menu");
      (113, "final test");
      (114, "pcb test");
      (115, "sleeping");
      (116, "transport") ].

Definition PRESSURE : gmap Z string :=
  list_to_map [ (114, "normal"); (118, "button pressed"); (178, "high") ].

(** [ORALB_MANUFACTURER = {0x00DC}]: a set display, not an [int]. *)
Definition ORALB_MANUFACTURER : pyval := PySet {[ 0x00DC ]}.

(** ** The advertisement record and the decoder's state *)

Record BluetoothServiceInfo : Type := {
  name : string;
  address : string;
  manufacturer_data : gmap Z bytes;
}.

(** The identity fields that the [BluetoothData] base class keeps for the
    setters the parser calls. *)
Record identity : Type := {
  id_manufacturer : option string;
  id_device_type : option string;
  id_device_name : option string;
  id_title : option string;
}.

(** One [_LOGGER.debug(msg, arg)] call. *)
Inductive log_record : Type :=
  | LogServiceInfo (msg : string) (service_info : BluetoothServiceInfo)
  | LogBytes (msg : string) (data : bytes)
  | LogResult (msg : string) (result : gmap string pyval).

Record store : Type := {
  self : identity;
  logged : list log_record;
}.

Definition no_identity : identity :=
  {| id_manufacturer := None; id_device_type := None;
     id_device_name := None; id_title := None |}.

Definition fresh : store := {| self := no_identity; logged := [] |}.

(** ** The store and exception monad of a method body *)

Definition M (A : Type) : Type := store -> store * outcome A.

Definition ret {A : Type} (a : A) : M A := fun st => (st, Return a).

Definition bind {A B : Type} (c : M A) (k : A -> M B) : M B :=
  fun st =>
    match c st with
    | (st', Return a) => k a st'
    | (st', Raise e) => (st', Raise e)
    end.

Definition lift {A : Type} (o : outcome A) : M A := fun st => (st, o).

Definition update_self (f : identity -> identity) : M unit :=
  fun st => ({| self := f (self st); logged := logged st |}, Return tt).

Definition debug (r : log_record) : M unit :=
  fun st => ({| self := self st; logged := logged st ++ [r] |}, Return tt).

Declare Scope py_scope.
Delimit Scope py_scope with py.
Notation "x <- c ;; k" := (bind c (fun x => k))
  (at level 100, c at next level, right associativity) : py_scope.
Notation "c ;; k" := (bind c (fun _ => k))
  (at level 100, right associativity) : py_scope.

(** The setters inherited from [BluetoothData]. *)
Definition set_device_manufacturer (m : string) : M unit :=
  update_self (fun i =>
    {| id_manufacturer := Some m; id_device_type := id_device_type i;
       id_device_name := id_device_name i; id_title := id_title i |}).

Definition set_device_type (t : string) : M unit :=
  update_self (fun i =>
    {| id_manufacturer := id_manufacturer i; id_device_type := Some t;
       id_device_name := id_device_name i; id_title := id_title i |}).

Definition set_device_name (n : string) : M unit :=
  update_self (fun i =>
    {| id_manufacturer := id_manufacturer i; id_device_type := id_device_type i;
       id_device_name := Some n; id_title := id_title i |}).

Definition set_title (t : string) : M unit :=
  update_self (fun i =>
    {| id_manufacturer := id_manufacturer i; id_device_type := id_device_type i;
       id_device_name := id_device_name i; id_title := Some t |}).

(** [result.update({...})]: the new items override the old ones. *)
Definition dict_update (result : gmap string pyval) (items : list (string * pyval))
  : gmap string pyval :=
  list_to_map items ∪ result.

(** The model signature test of [_process_mfr_data]:
    [device_bytes == b"\x062k"]. *)
Definition model_of (device_bytes : bytes) : Models :=
  if decide (device_bytes = [x06; x32; x6b]) then IOSerial7 else SmartSeries7000.

(** An address-shortening helper with which the decoder can be run on
    concrete records: the last four characters of the address once its
    separators are removed. *)
Fixpoint strip_separators (s : string) : string :=
  match s with
  | EmptyString => EmptyString
  | String c s' =>
      if decide (c = ":"%char \/ c = "-"%char) then strip_separators s'
      else String c (strip_separators s')
  end.

Definition last_four (addr : string) : string :=
  let s := strip_separators addr in
  String.substring (String.length s - 4) 4 s.

Section Parser.

(** [bluetooth_data_tools.short_address] is imported from another
    package; the parser is embedded over any such function. *)
Variable short_address : string -> string.

Local Open Scope py_scope.

Definition _process_mfr_data (address local_name : string) (data : bytes) : M unit :=
  debug (LogBytes "Parsing OralB sensor: %s" data) ;;
  let msg_length := length data in
  if negb (bool_decide (msg_length = 11%nat)) then ret tt else
  fields <- lift (UNPACK_BBHBBBB (slice 3 11 data)) ;;
  let '(state, pressure, counter, mode, sector, sector_timer, no_of_sectors) :=
    fields in
  let result : gmap string pyval := ∅ in
  let result :=
    if bool_decide (state = 3)
    then dict_update result [("toothbrush", PyInt 1)]
    else dict_update result [("toothbrush", PyInt 0)] in
  let device_bytes := slice 4 7 data in
  let model := model_of device_bytes in
  let model_info := DEVICE_TYPES model in
  let modes := modes model_info in
  set_device_type (device_type model_info) ;;
  let name := device_type model_info +:+ " " +:+ short_address address in
  set_device_name name ;;
  set_title name ;;
  let tb_state := dict_get STATES state ("unknown state " +:+ str state) in
  let tb_mode := dict_get modes mode ("unknown mode " +:+ str mode) in
  let tb_pressure := dict_get PRESSURE pressure ("unknown pressure " +:+ str pressure) in
  let tb_sector :=
    if bool_decide (sector = 254) then "last sector"
    else if bool_decide (sector = 255) then "no sector"
    else "sector " +:+ str sector in
  let result :=
    dict_update result
      [ ("toothbrush state", PyStr tb_state);
        ("pressure", PyStr tb_pressure);
        ("counter", PyInt counter);
        ("mode", PyStr tb_mode);
        ("sector", PyStr tb_sector);
        ("sector timer", PyInt sector_timer);
        ("number of sectors", PyInt no_of_sectors) ] in
  debug (LogResult "OralB sensor data: %s" result).

Definition _start_update (service_info : BluetoothServiceInfo) : M unit :=
  debug (LogServiceInfo "Parsing OralB BLE advertisement data: %s" service_info) ;;
  let manufacturer_data := manufacturer_data service_info in
  let local_name := name service_info in
  let address := address service_info in
  set_device_manufacturer "OralB" ;;
  present <- lift (dict_contains ORALB_MANUFACTURER manufacturer_data) ;;
  if negb present then ret tt else
  mfr_data <- lift (dict_getitem manufacturer_data ORALB_MANUFACTURER) ;;
  _process_mfr_data address local_name mfr_data.

End Parser.

(** The snapshots ([result] dicts) that a run has emitted, oldest first. *)
Definition snapshots (st : store) : list (gmap string pyval) :=
  omap (fun r => match r with LogResult _ result => Some result | _ => None end)
       (logged st).

Definition sample_payload : bytes :=
  [x00; x00; x00; x03; x6e; x04; x00; x01; x00; x01; x05].

Definition sample_info : BluetoothServiceInfo :=
  {| name := "Oral-B Toothbrush";
     address := "78:DB:2F:C2:48:BE";
     manufacturer_data := {[ 0x00DC := sample_payload ]} |}.


(** A record from an unrelated device sharing the scan. *)
Definition unrelated_info : BluetoothServiceInfo :=
  {| name := "Tracker";
     address := "C4:7C:8D:6A:3E:7B";
     manufacturer_data := {[ 0x004C := [x02; x15; x01] ]} |}.

(** The keys of a complete snapshot. *)
Definition snapshot_keys : gset string :=
  list_to_set
    [ "toothbrush"; "toothbrush state"; "pressure"; "counter"; "mode";
      "sector"; "sector timer"; "number of sectors" ].

(** An IO Serial 7 frame and a frame whose state, pressure and mode codes
    are in none of the tables. *)
Definition io7_payload : bytes :=
  [x00; x00; x00; x03; x06; x32; x6b; x01; xfe; x1e; x04].

Definition odd_payload : bytes :=
  [x00; x00; x00; x07; x00; x00; x2a; x09; x05; x00; x04].

(** A Smart Series frame whose state, pressure and mode codes are all in
    the tables. *)
Definition known_payload : bytes :=
  [x00; x00; x00; x02; x72; x00; x10; x05; x01; x0f; x04].

(** The labels of [_process_mfr_data], as functions of the decoded code:
    the right-hand sides of [tb_state], [tb_pressure], [tb_mode] and
    [tb_sector]. *)
Definition tb_state_of (state : Z) : string :=
  dict_get STATES state ("unknown state " +:+ str state).

Definition tb_pressure_of (pressure : Z) : string :=
  dict_get PRESSURE pressure ("unknown pressure " +:+ str pressure).

Definition tb_mode_of (model : Models) (mode : Z) : string :=
  dict_get (modes (DEVICE_TYPES model)) mode ("unknown mode " +:+ str mode).

Definition tb_sector_of (sector : Z) : string :=
  if bool_decide (sector = 254) then "last sector"
  else if bool_decide (sector = 255) then "no sector"
  else "sector " +:+ str sector.

(** The 256 octets, and a check that a labelling of octets never gives two
    octets the same label. *)
Definition all_bytes : list byte :=
  omap (fun n => Byte.of_N (N.of_nat n)) (seq 0 256).

Definition distinct_on_bytes (f : byte -> string) : bool :=
  forallb (fun a =>
    forallb (fun b => implb (String.eqb (f a) (f b)) (Byte.eqb a b)) all_bytes)
    all_bytes.

(** * Properties *)

(** ** The embedding on small inputs *)

Example str_decimal : str 12907 = "12907" /\ str 0 = "0" /\ str 254 = "254".
Proof. repeat split. Qed.

Example slice_clamps : slice 3 11 [x01; x02; x03; x04; x05] = [x04; x05].
Proof. reflexivity. Qed.

Example signature_bytes : slice 4 7 io7_payload = [x06; x32; x6b].
Proof. reflexivity. Qed.

Example unpack_sample :
  UNPACK_BBHBBBB (slice 3 11 sample_payload) = Return (3, 110, 1024, 1, 0, 1, 5).
Proof. vm_compute. reflexivity. Qed.

Example unpack_wrong_size :
  UNPACK_BBHBBBB [x03; x6e; x04] = Raise StructError /\
  UNPACK_BBHBBBB [x03; x6e; x04; x00; x01; x00; x01; x05; x00] = Raise StructError.
Proof. split; reflexivity. Qed.

Example mode_code_1_by_model :
  modes (DEVICE_TYPES IOSerial7) !! 1 = Some "sensitive" /\
  modes (DEVICE_TYPES SmartSeries7000) !! 1 = Some "daily clean".
Proof. split; vm_compute; reflexivity. Qed.

Example sample_payload_snapshot :
  snapshots (fst (_process_mfr_data last_four "78:DB:2F:C2:48:BE" "Oral-B Toothbrush"
                    sample_payload fresh)) =
  [ list_to_map
      [ ("toothbrush", PyInt 1);
        ("toothbrush state", PyStr "running");
        ("pressure", PyStr "unknown pressure 110");
        ("counter", PyInt 1024);
        ("mode", PyStr "daily clean");
        ("sector", PyStr "sector 0");
        ("sector timer", PyInt 1);
        ("number of sectors", PyInt 5) ] ].
Proof. vm_compute. reflexivity. Qed.

(** ** Values and unpacking *)

Lemma byte_val_range (b : byte) : 0 <= byte_val b <= 255.
Proof.
  unfold byte_val. pose proof (Byte.to_N_bounded b). lia.
Qed.

Lemma lor_shiftl_8 (hi lo : Z) :
  0 <= hi -> 0 <= lo < 256 -> Z.lor (Z.shiftl hi 8) lo = 256 * hi + lo.
Proof.
  intros Hhi Hlo.
  assert (Hdisj : Z.land (Z.shiftl hi 8) lo = 0).
  { apply Z.bits_inj'. intros n Hn.
    rewrite Z.land_spec, Z.bits_0.
    destruct (Z.lt_ge_cases n 8) as [Hlt | Hge].
    - rewrite Z.shiftl_spec_low by lia. reflexivity.
    - rewrite andb_false_iff. right.
      destruct (Z.eq_dec lo 0) as [-> | Hne]; [apply Z.bits_0 |].
      apply Z.bits_above_log2; [lia |].
      assert (Z.log2 lo < 8) by (apply Z.log2_lt_pow2; lia).
      lia. }
  rewrite <- Z.lxor_lor by exact Hdisj.
  rewrite <- Z.add_nocarry_lxor by exact Hdisj.
  rewrite Z.shiftl_mul_pow2 by lia. lia.
Qed.

Lemma be16_value (hi lo : byte) :
  Z.lor (Z.shiftl (byte_val hi) 8) (byte_val lo) = 256 * byte_val hi + byte_val lo.
Proof.
  pose proof (byte_val_range hi). pose proof (byte_val_range lo).
  apply lor_shiftl_8; lia.
Qed.

Lemma unpack_be_length (fmt : list fmt_code) (buf : bytes) (vs : list Z) :
  unpack_be fmt buf = Some vs ->
  length buf = calcsize fmt /\ length vs = length fmt.
Proof.
  revert buf vs. induction fmt as [| c fmt IH]; intros buf vs H.
  - destruct buf; simpl in H; [| discriminate].
    injection H as <-. split; reflexivity.
  - destruct c; simpl in H.
    + destruct buf as [| b buf]; [discriminate |].
      destruct (unpack_be fmt buf) as [vs' |] eqn:E; [| discriminate].
      injection H as <-. destruct (IH _ _ E) as [H1 H2].
      simpl. split; congruence.
    + destruct buf as [| hi [| lo buf]]; try discriminate.
      destruct (unpack_be fmt buf) as [vs' |] eqn:E; [| discriminate].
      injection H as <-. destruct (IH _ _ E) as [H1 H2].
      simpl. split; congruence.
Qed.

Lemma UNPACK_BBHBBBB_bytes (s p hi lo m sec t n : byte) :
  UNPACK_BBHBBBB [s; p; hi; lo; m; sec; t; n] =
  Return (byte_val s, byte_val p, 256 * byte_val hi + byte_val lo,
          byte_val m, byte_val sec, byte_val t, byte_val n).
Proof.
  unfold UNPACK_BBHBBBB. cbn [unpack_be fmap option_fmap option_map].
  rewrite be16_value. reflexivity.
Qed.

Lemma UNPACK_BBHBBBB_size (buf : bytes) fields :
  UNPACK_BBHBBBB buf = Return fields -> length buf = 8%nat.
Proof.
  unfold UNPACK_BBHBBBB. intros H.
  destruct (unpack_be _ buf) as [vs |] eqn:E; [| discriminate].
  apply unpack_be_length in E. tauto.
Qed.

Lemma length_11_inv (data : bytes) :
  length data = 11%nat ->
  exists b0 b1 b2 b3 b4 b5 b6 b7 b8 b9 b10,
    data = [b0; b1; b2; b3; b4; b5; b6; b7; b8; b9; b10].
Proof.
  intros H.
  do 11 (destruct data as [| ? data]; [discriminate |]).
  destruct data; [| discriminate].
  repeat eexists.
Qed.

(** ** The shape of a snapshot *)

Lemma snapshot_shape (t s p c m sec tm ns : pyval) :
  let snap :=
    dict_update (dict_update ∅ [("toothbrush", t)])
      [ ("toothbrush state", s); ("pressure", p); ("counter", c); ("mode", m);
        ("sector", sec); ("sector timer", tm); ("number of sectors", ns) ] in
  dom snap = snapshot_keys /\
  snap !! "toothbrush" = Some t /\
  snap !! "toothbrush state" = Some s /\
  snap !! "pressure" = Some p /\
  snap !! "counter" = Some c /\
  snap !! "mode" = Some m /\
  snap !! "sector" = Some sec /\
  snap !! "sector timer" = Some tm /\
  snap !! "number of sectors" = Some ns.
Proof.
  vm_compute. repeat split; reflexivity.
Qed.

Lemma snapshots_logged_result (st st' : store) (l : list log_record)
      (msg : string) (r : gmap string pyval) :
  logged st' = (l ++ [LogResult msg r])%list ->
  snapshots {| self := self st; logged := l |} = snapshots st ->
  snapshots st' = (snapshots st ++ [r])%list.
Proof.
  unfold snapshots. simpl. intros -> <-. rewrite omap_app. reflexivity.
Qed.

Lemma snapshots_logged_bytes (st : store) (i : identity) (msg : string) (data : bytes) :
  snapshots {| self := i; logged := (logged st ++ [LogBytes msg data])%list |} =
  snapshots st.
Proof.
  unfold snapshots. simpl. rewrite omap_app. simpl. apply app_nil_r.
Qed.

Lemma snapshots_logged_info (st : store) (i : identity) (msg : string)
      (si : BluetoothServiceInfo) :
  snapshots {| self := i; logged := (logged st ++ [LogServiceInfo msg si])%list |} =
  snapshots st.
Proof.
  unfold snapshots. simpl. rewrite omap_app. simpl. apply app_nil_r.
Qed.

Section ParserFacts.

Variable short_address : string -> string.

(** ** The frame decoder [_process_mfr_data] *)

(** A payload of any length other than 11 is dropped after the first
    debug record: nothing is raised, the identity is untouched. *)
Lemma process_mfr_data_dropped (addr local_name : string) (data : bytes) (st : store) :
  length data <> 11%nat ->
  _process_mfr_data short_address addr local_name data st =
  ({| self := self st;
      logged := (logged st ++ [LogBytes "Parsing OralB sensor: %s" data])%list |},
   Return tt).
Proof.
  intros H. unfold _process_mfr_data, bind, debug, ret.
  rewrite bool_decide_eq_false_2 by exact H. reflexivity.
Qed.

(** An 11-byte payload runs the whole body. *)
Lemma process_mfr_data_decoded (addr local_name : string) (data : bytes) (st : store)
      (state pressure counter mode sector sector_timer no_of_sectors : Z) :
  length data = 11%nat ->
  UNPACK_BBHBBBB (slice 3 11 data) =
    Return (state, pressure, counter, mode, sector, sector_timer, no_of_sectors) ->
  let model_info := DEVICE_TYPES (model_of (slice 4 7 data)) in
  let title := device_type model_info +:+ " " +:+ short_address addr in
  exists (st' : store) (snap : gmap string pyval),
    _process_mfr_data short_address addr local_name data st = (st', Return tt) /\
    self st' =
      {| id_manufacturer := id_manufacturer (self st);
         id_device_type := Some (device_type model_info);
         id_device_name := Some title;
         id_title := Some title |} /\
    snapshots st' = (snapshots st ++ [snap])%list /\
    dom snap = snapshot_keys /\
    snap !! "toothbrush" = Some (PyInt (if bool_decide (state = 3) then 1 else 0)) /\
    snap !! "toothbrush state" =
      Some (PyStr (dict_get STATES state ("unknown state " +:+ str state))) /\
    snap !! "pressure" =
      Some (PyStr (dict_get PRESSURE pressure ("unknown pressure " +:+ str pressure))) /\
    snap !! "counter" = Some (PyInt counter) /\
    snap !! "mode" =
      Some (PyStr (dict_get (modes model_info) mode ("unknown mode " +:+ str mode))) /\
    snap !! "sector" =
      Some (PyStr (if bool_decide (sector = 254) then "last sector"
                   else if bool_decide (sector = 255) then "no sector"
                   else "sector " +:+ str sector)) /\
    snap !! "sector timer" = Some (PyInt sector_timer) /\
    snap !! "number of sectors" = Some (PyInt no_of_sectors).
Proof.
  intros Hlen Hunpack model_info title.
  unfold _process_mfr_data, bind, debug, lift.
  rewrite bool_decide_eq_true_2 by exact Hlen. cbn [negb].
  rewrite Hunpack.
  cbn [set_device_type set_device_name set_title update_self self logged
       id_manufacturer id_device_type id_device_name id_title].
  eexists _, _. split; [reflexivity |]. split; [reflexivity |].
  split.
  { eapply snapshots_logged_result; [reflexivity |].
    apply snapshots_logged_bytes. }
  replace (if bool_decide (state = 3)
           then dict_update ∅ [("toothbrush", PyInt 1)]
           else dict_update ∅ [("toothbrush", PyInt 0)])
    with (dict_update ∅ [("toothbrush", PyInt (if bool_decide (state = 3) then 1 else 0))])
    by (destruct (bool_decide (state = 3)); reflexivity).
  apply snapshot_shape.
Qed.

(** Unpacking the tail of an 11-byte payload cannot fail. *)
Lemma UNPACK_BBHBBBB_frame (data : bytes) :
  length data = 11%nat ->
  exists s p hi lo m sec t n,
    data !! 3%nat = Some s /\ data !! 4%nat = Some p /\
    data !! 5%nat = Some hi /\ data !! 6%nat = Some lo /\
    data !! 7%nat = Some m /\ data !! 8%nat = Some sec /\
    data !! 9%nat = Some t /\ data !! 10%nat = Some n /\
    slice 4 7 data = [p; hi; lo] /\
    UNPACK_BBHBBBB (slice 3 11 data) =
      Return (byte_val s, byte_val p, 256 * byte_val hi + byte_val lo,
              byte_val m, byte_val sec, byte_val t, byte_val n).
Proof.
  intros H.
  destruct (length_11_inv data H)
    as (b0 & b1 & b2 & s & p & hi & lo & m & sec & t & n & ->).
  exists s, p, hi, lo, m, sec, t, n.
  repeat (split; [reflexivity |]).
  apply UNPACK_BBHBBBB_bytes.
Qed.

(** C3: a vendor-tagged payload whose length is not 11 is dropped
    silently (the call returns, nothing is raised, no snapshot is
    emitted and the identity is untouched); a payload of length exactly 11
    yields one complete snapshot, holding the eight measurement keys. *)
Theorem process_mfr_data_length_gate (addr local_name : string) (data : bytes) (st : store) :
  (length data <> 11%nat ->
     exists st' : store,
       _process_mfr_data short_address addr local_name data st = (st', Return tt) /\
       snapshots st' = snapshots st /\
       self st' = self st) /\
  (length data = 11%nat ->
     exists (st' : store) (snap : gmap string pyval),
       _process_mfr_data short_address addr local_name data st = (st', Return tt) /\
       snapshots st' = (snapshots st ++ [snap])%list /\
       dom snap = snapshot_keys).
Proof.
  split; intros Hlen.
  - eexists. split; [apply process_mfr_data_dropped; exact Hlen |].
    split; [apply snapshots_logged_bytes | reflexivity].
  - destruct (UNPACK_BBHBBBB_frame data Hlen)
      as (s & p & hi & lo & m & sec & t & n & _ & _ & _ & _ & _ & _ & _ & _ & _ & Hu).
    destruct (process_mfr_data_decoded addr local_name data st _ _ _ _ _ _ _ Hlen Hu)
      as (st' & snap & Hrun & _ & Hsnaps & Hdom & _).
    exists st', snap. auto.
Qed.

(** C4: for an 11-byte payload, bytes 3 to 10 are unpacked big-endian
    as state, pressure, counter (two bytes, high byte first, hence within
    0..65535), mode, sector, sector_timer and no_of_sectors (one unsigned
    byte each); the snapshot's counter, sector timer and number of sectors
    are exactly the unpacked values. *)
Theorem frame_fields_big_endian (addr local_name : string) (data : bytes) (st : store) :
  length data = 11%nat ->
  exists (s p hi lo m sec t n : byte) (st' : store) (snap : gmap string pyval),
    data !! 3%nat = Some s /\ data !! 4%nat = Some p /\
    data !! 5%nat = Some hi /\ data !! 6%nat = Some lo /\
    data !! 7%nat = Some m /\ data !! 8%nat = Some sec /\
    data !! 9%nat = Some t /\ data !! 10%nat = Some n /\
    UNPACK_BBHBBBB (slice 3 11 data) =
      Return (byte_val s, byte_val p, 256 * byte_val hi + byte_val lo,
              byte_val m, byte_val sec, byte_val t, byte_val n) /\
    Forall (fun v => 0 <= v <= 255)
      [byte_val s; byte_val p; byte_val m; byte_val sec; byte_val t; byte_val n] /\
    0 <= 256 * byte_val hi + byte_val lo <= 65535 /\
    _process_mfr_data short_address addr local_name data st = (st', Return tt) /\
    snapshots st' = (snapshots st ++ [snap])%list /\
    snap !! "counter" = Some (PyInt (256 * byte_val hi + byte_val lo)) /\
    snap !! "sector timer" = Some (PyInt (byte_val t)) /\
    snap !! "number of sectors" = Some (PyInt (byte_val n)).
Proof.
  intros Hlen.
  destruct (UNPACK_BBHBBBB_frame data Hlen)
    as (s & p & hi & lo & m & sec & t & n
        & H3 & H4 & H5 & H6 & H7 & H8 & H9 & H10 & _ & Hu).
  destruct (process_mfr_data_decoded addr local_name data st _ _ _ _ _ _ _ Hlen Hu)
    as (st' & snap & Hrun & _ & Hsnaps & _ & _ & _ & _ & Hc & _ & _ & Ht & Hn).
  exists s, p, hi, lo, m, sec, t, n, st', snap.
  repeat (split; [assumption |]).
  split; [repeat constructor; apply byte_val_range |].
  split.
  { pose proof (byte_val_range hi). pose proof (byte_val_range lo). lia. }
  auto.
Qed.

(** C5: for an 11-byte payload the model depends on bytes 4 to 6 only:
    it is IOSerial7 exactly when they are 0x06, 0x32, 0x6B and
    SmartSeries7000 for every other triplet; the call always returns and
    reports the device type of that model. *)
Theorem model_by_signature (addr local_name : string) (data : bytes) (st : store) :
  length data = 11%nat ->
  exists (b4 b5 b6 : byte) (model : Models) (st' : store),
    data !! 4%nat = Some b4 /\ data !! 5%nat = Some b5 /\ data !! 6%nat = Some b6 /\
    model = model_of [b4; b5; b6] /\
    (model = IOSerial7 <-> b4 = x06 /\ b5 = x32 /\ b6 = x6b) /\
    (model = SmartSeries7000 <-> ~ (b4 = x06 /\ b5 = x32 /\ b6 = x6b)) /\
    _process_mfr_data short_address addr local_name data st = (st', Return tt) /\
    id_device_type (self st') = Some (device_type (DEVICE_TYPES model)) /\
    id_device_name (self st') =
      Some (device_type (DEVICE_TYPES model) +:+ " " +:+ short_address addr).
Proof.
  intros Hlen.
  destruct (UNPACK_BBHBBBB_frame data Hlen)
    as (s & p & hi & lo & m & sec & t & n
        & _ & H4 & H5 & H6 & _ & _ & _ & _ & Hsl & Hu).
  destruct (process_mfr_data_decoded addr local_name data st _ _ _ _ _ _ _ Hlen Hu)
    as (st' & snap & Hrun & Hself & _).
  exists p, hi, lo, (model_of [p; hi; lo]), st'.
  repeat (split; [assumption || reflexivity |]).
  split; [| split]; [| | split; [exact Hrun |]].
  - unfold model_of. case_decide as E.
    + injection E as -> -> ->. tauto.
    + split; [discriminate |]. intros (-> & -> & ->). contradiction.
  - unfold model_of. case_decide as E.
    + injection E as -> -> ->. split; [discriminate | tauto].
    + split; [| reflexivity]. intros _ (-> & -> & ->). contradiction.
  - rewrite Hself, Hsl. split; reflexivity.
Qed.

(** C6: for an 11-byte payload the snapshot's toothbrush measurement is 1
    when the decoded state is 3 and 0 for every other state. *)
Theorem toothbrush_flag (addr local_name : string) (data : bytes) (st : store)
        (state pressure counter mode sector sector_timer no_of_sectors : Z) :
  length data = 11%nat ->
  UNPACK_BBHBBBB (slice 3 11 data) =
    Return (state, pressure, counter, mode, sector, sector_timer, no_of_sectors) ->
  exists (st' : store) (snap : gmap string pyval),
    _process_mfr_data short_address addr local_name data st = (st', Return tt) /\
    snapshots st' = (snapshots st ++ [snap])%list /\
    (state = 3 -> snap !! "toothbrush" = Some (PyInt 1)) /\
    (state <> 3 -> snap !! "toothbrush" = Some (PyInt 0)).
Proof.
  intros Hlen Hu.
  destruct (process_mfr_data_decoded addr local_name data st _ _ _ _ _ _ _ Hlen Hu)
    as (st' & snap & Hrun & _ & Hsnaps & _ & Htb & _).
  exists st', snap. repeat (split; [assumption |]).
  split; intros H.
  - rewrite Htb, bool_decide_eq_true_2 by exact H. reflexivity.
  - rewrite Htb, bool_decide_eq_false_2 by exact H. reflexivity.
Qed.

(** C7: for an 11-byte payload, a state, pressure or mode code missing
    from its table ([STATES], [PRESSURE], the mode map of the resolved
    model) is labelled "unknown state " + code, "unknown pressure " + code
    or "unknown mode " + code, and the call still returns with a complete
    snapshot. *)
Theorem unknown_codes_labelled (addr local_name : string) (data : bytes) (st : store)
        (state pressure counter mode sector sector_timer no_of_sectors : Z) :
  length data = 11%nat ->
  UNPACK_BBHBBBB (slice 3 11 data) =
    Return (state, pressure, counter, mode, sector, sector_timer, no_of_sectors) ->
  exists (st' : store) (snap : gmap string pyval),
    _process_mfr_data short_address addr local_name data st = (st', Return tt) /\
    snapshots st' = (snapshots st ++ [snap])%list /\
    dom snap = snapshot_keys /\
    (STATES !! state = None ->
       snap !! "toothbrush state" = Some (PyStr ("unknown state " +:+ str state))) /\
    (PRESSURE !! pressure = None ->
       snap !! "pressure" = Some (PyStr ("unknown pressure " +:+ str pressure))) /\
    (modes (DEVICE_TYPES (model_of (slice 4 7 data))) !! mode = None ->
       snap !! "mode" = Some (PyStr ("unknown mode " +:+ str mode))).
Proof.
  intros Hlen Hu.
  destruct (process_mfr_data_decoded addr local_name data st _ _ _ _ _ _ _ Hlen Hu)
    as (st' & snap & Hrun & _ & Hsnaps & Hdom & _ & Hs & Hp & _ & Hm & _).
  exists st', snap. repeat (split; [assumption |]).
  unfold dict_get in Hs, Hp, Hm.
  split; [| split]; intros H; rewrite H in *; assumption.
Qed.

(** C8: for an 11-byte payload the sector label is "last sector" when the
    decoded sector is 254, "no sector" when it is 255, and
    "sector " + v for every other sector value v. *)
Theorem sector_label (addr local_name : string) (data : bytes) (st : store)
        (state pressure counter mode sector sector_timer no_of_sectors : Z) :
  length data = 11%nat ->
  UNPACK_BBHBBBB (slice 3 11 data) =
    Return (state, pressure, counter, mode, sector, sector_timer, no_of_sectors) ->
  exists (st' : store) (snap : gmap string pyval),
    _process_mfr_data short_address addr local_name data st = (st', Return tt) /\
    snapshots st' = (snapshots st ++ [snap])%list /\
    (sector = 254 -> snap !! "sector" = Some (PyStr "last sector")) /\
    (sector = 255 -> snap !! "sector" = Some (PyStr "no sector")) /\
    (sector <> 254 -> sector <> 255 ->
       snap !! "sector" = Some (PyStr ("sector " +:+ str sector))).
Proof.
  intros Hlen Hu.
  destruct (process_mfr_data_decoded addr local_name data st _ _ _ _ _ _ _ Hlen Hu)
    as (st' & snap & Hrun & _ & Hsnaps & _ & _ & _ & _ & _ & _ & Hsec & _).
  exists st', snap. repeat (split; [assumption |]).
  rewrite Hsec. split; [| split].
  - intros ->. reflexivity.
  - intros ->. reflexivity.
  - intros H254 H255.
    rewrite !bool_decide_eq_false_2 by assumption. reflexivity.
Qed.

(** C10: an 11-byte payload classified as IOSerial7 has decoded pressure
    6 and decoded counter 12907 (0x326B), since the signature bytes are the
    pressure byte and the two counter bytes; 6 is not a key of [PRESSURE],
    so its snapshot has pressure "unknown pressure 6" and counter 12907. *)
Theorem io_serial7_pressure_counter (addr local_name : string) (data : bytes) (st : store)
        (state pressure counter mode sector sector_timer no_of_sectors : Z) :
  length data = 11%nat ->
  UNPACK_BBHBBBB (slice 3 11 data) =
    Return (state, pressure, counter, mode, sector, sector_timer, no_of_sectors) ->
  model_of (slice 4 7 data) = IOSerial7 ->
  pressure = 6 /\ counter = 12907 /\ PRESSURE !! 6 = None /\
  exists (st' : store) (snap : gmap string pyval),
    _process_mfr_data short_address addr local_name data st = (st', Return tt) /\
    id_device_type (self st') = Some "IO Serial 7" /\
    snapshots st' = (snapshots st ++ [snap])%list /\
    snap !! "pressure" = Some (PyStr "unknown pressure 6") /\
    snap !! "counter" = Some (PyInt 12907).
Proof.
  intros Hlen Hu Hmodel.
  destruct (UNPACK_BBHBBBB_frame data Hlen)
    as (s & p & hi & lo & m & sec & t & n
        & _ & _ & _ & _ & _ & _ & _ & _ & Hsl & Hu').
  assert (Hsig : [p; hi; lo] = [x06; x32; x6b]).
  { rewrite Hsl in Hmodel. unfold model_of in Hmodel.
    case_decide; [assumption | discriminate]. }
  injection Hsig as -> -> ->.
  rewrite Hu in Hu'. injection Hu' as -> -> -> -> -> -> ->.
  destruct (process_mfr_data_decoded addr local_name data st _ _ _ _ _ _ _ Hlen Hu)
    as (st' & snap & Hrun & Hself & Hsnaps & _ & _ & _ & Hp & Hc & _).
  split; [reflexivity |]. split; [reflexivity |].
  split; [vm_compute; reflexivity |].
  exists st', snap. split; [exact Hrun |].
  split; [rewrite Hself, Hmodel; reflexivity |].
  split; [exact Hsnaps |].
  split; [rewrite Hp | rewrite Hc]; vm_compute; reflexivity.
Qed.

(** ** The entry point [_start_update] *)

(** The membership test hashes the set bound to [ORALB_MANUFACTURER]:
    every call records the manufacturer and then raises [TypeError]. *)
Lemma start_update_raises (service_info : BluetoothServiceInfo) (st : store) :
  _start_update short_address service_info st =
  ({| self :=
        {| id_manufacturer := Some "OralB";
           id_device_type := id_device_type (self st);
           id_device_name := id_device_name (self st);
           id_title := id_title (self st) |};
      logged :=
        (logged st ++
         [LogServiceInfo "Parsing OralB BLE advertisement data: %s" service_info])%list |},
   Raise TypeError).
Proof. reflexivity. Qed.

(** C2 (amended): for a record whose manufacturer data lacks the vendor
    identifier the call emits no snapshot and sets neither device type,
    device name nor title; the manufacturer name is set to "OralB", as it
    is on every call, before the membership test. *)
Theorem start_update_untagged_effects (service_info : BluetoothServiceInfo) (st : store) :
  manufacturer_data service_info !! 0x00DC = None ->
  exists (st' : store) (o : outcome unit),
    _start_update short_address service_info st = (st', o) /\
    snapshots st' = snapshots st /\
    id_device_type (self st') = id_device_type (self st) /\
    id_device_name (self st') = id_device_name (self st) /\
    id_title (self st') = id_title (self st) /\
    id_manufacturer (self st') = Some "OralB".
Proof.
  intros _. eexists _, _. split; [apply start_update_raises |].
  split; [apply snapshots_logged_info |].
  repeat split.
Qed.

End ParserFacts.

(** ** The lookup tables *)

(** C9 (amended): [STATES] holds exactly 12 entries and [PRESSURE] exactly
    3 entries. *)
Theorem table_sizes : size STATES = 12%nat /\ size PRESSURE = 3%nat.
Proof. split; vm_compute; reflexivity. Qed.

(** C9 as stated (11 state entries, 3 pressure entries) fails on the
    tables of the module. *)
Lemma STATES_not_11_entries : ~ (size STATES = 11%nat /\ size PRESSURE = 3%nat).
Proof. intros [H _]. vm_compute in H. discriminate. Qed.

(** ** Concrete runs *)

(** C1: a record that carries an 11-byte payload under key 0x00DC is not
    decoded: [_start_update] raises [TypeError] at the membership test and
    the frame decoder, which would emit a snapshot for that payload, is
    never reached. *)
Theorem start_update_tagged_record_raises :
  manufacturer_data sample_info !! 0x00DC = Some sample_payload /\
  snd (_start_update last_four sample_info fresh) = Raise TypeError /\
  snapshots (fst (_start_update last_four sample_info fresh)) = [] /\
  id_device_type (self (fst (_start_update last_four sample_info fresh))) = None /\
  length (snapshots (fst (_process_mfr_data last_four (address sample_info)
                            (name sample_info) sample_payload fresh))) = 1%nat.
Proof. vm_compute. repeat split; reflexivity. Qed.

(** C2 as stated fails: a record without the vendor identifier still has
    the manufacturer name set on the identity. *)
Lemma start_update_untagged_sets_manufacturer :
  manufacturer_data unrelated_info !! 0x00DC = None /\
  id_manufacturer (self fresh) = None /\
  id_manufacturer (self (fst (_start_update last_four unrelated_info fresh))) =
    Some "OralB".
Proof. vm_compute. repeat split; reflexivity. Qed.

(** ** The theorems at concrete payloads *)

Lemma start_update_untagged_effects_witness :
  manufacturer_data unrelated_info !! 0x00DC = None /\
  exists (st' : store) (o : outcome unit),
    _start_update last_four unrelated_info fresh = (st', o) /\
    snapshots st' = snapshots fresh /\
    id_device_type (self st') = id_device_type (self fresh) /\
    id_device_name (self st') = id_device_name (self fresh) /\
    id_title (self st') = id_title (self fresh) /\
    id_manufacturer (self st') = Some "OralB".
Proof.
  split; [vm_compute; reflexivity |].
  apply (start_update_untagged_effects last_four unrelated_info fresh).
  vm_compute. reflexivity.
Defined.

Lemma process_mfr_data_length_gate_witness :
  (length [x00; x00; x00; x03] <> 11%nat /\
   exists st' : store,
     _process_mfr_data last_four "78:DB:2F:C2:48:BE" "Oral-B Toothbrush"
       [x00; x00; x00; x03] fresh = (st', Return tt) /\
     snapshots st' = snapshots fresh /\
     self st' = self fresh) /\
  (length sample_payload = 11%nat /\
   exists (st' : store) (snap : gmap string pyval),
     _process_mfr_data last_four "78:DB:2F:C2:48:BE" "Oral-B Toothbrush"
       sample_payload fresh = (st', Return tt) /\
     snapshots st' = (snapshots fresh ++ [snap])%list /\
     dom snap = snapshot_keys).
Proof.
  split.
  - assert (H : length [x00; x00; x00; x03] <> 11%nat) by (simpl; lia).
    split; [exact H |].
    exact (proj1 (process_mfr_data_length_gate last_four "78:DB:2F:C2:48:BE"
                    "Oral-B Toothbrush" [x00; x00; x00; x03] fresh) H).
  - split; [reflexivity |].
    exact (proj2 (process_mfr_data_length_gate last_four "78:DB:2F:C2:48:BE"
                    "Oral-B Toothbrush" sample_payload fresh) eq_refl).
Defined.

Lemma frame_fields_big_endian_witness :
  length sample_payload = 11%nat /\
  UNPACK_BBHBBBB (slice 3 11 sample_payload) = Return (3, 110, 1024, 1, 0, 1, 5) /\
  exists (st' : store) (snap : gmap string pyval),
    _process_mfr_data last_four "78:DB:2F:C2:48:BE" "Oral-B Toothbrush"
      sample_payload fresh = (st', Return tt) /\
    snap !! "counter" = Some (PyInt 1024) /\
    snap !! "sector timer" = Some (PyInt 1) /\
    snap !! "number of sectors" = Some (PyInt 5).
Proof.
  split; [reflexivity |]. split; [vm_compute; reflexivity |].
  destruct (frame_fields_big_endian last_four "78:DB:2F:C2:48:BE" "Oral-B Toothbrush"
              sample_payload fresh eq_refl)
    as (s & p & hi & lo & m & sec & t & n & st' & snap
        & _ & _ & H5 & H6 & _ & _ & H9 & H10 & _ & _ & _ & Hrun & _ & Hc & Ht & Hn).
  vm_compute in H5, H6, H9, H10.
  injection H5 as <-. injection H6 as <-. injection H9 as <-. injection H10 as <-.
  exists st', snap. auto.
Defined.

Lemma model_by_signature_witness :
  length io7_payload = 11%nat /\
  exists st' : store,
    _process_mfr_data last_four "78:DB:2F:C2:48:BE" "Oral-B Toothbrush"
      io7_payload fresh = (st', Return tt) /\
    id_device_type (self st') = Some "IO Serial 7" /\
    id_device_name (self st') = Some "IO Serial 7 48BE".
Proof.
  split; [reflexivity |].
  destruct (model_by_signature last_four "78:DB:2F:C2:48:BE" "Oral-B Toothbrush"
              io7_payload fresh eq_refl)
    as (b4 & b5 & b6 & model & st' & H4 & H5 & H6 & -> & _ & _ & Hrun & Hty & Hnm).
  vm_compute in H4, H5, H6.
  injection H4 as <-. injection H5 as <-. injection H6 as <-.
  exists st'. auto.
Defined.

Lemma toothbrush_flag_witness :
  length sample_payload = 11%nat /\
  UNPACK_BBHBBBB (slice 3 11 sample_payload) = Return (3, 110, 1024, 1, 0, 1, 5) /\
  exists (st' : store) (snap : gmap string pyval),
    _process_mfr_data last_four "78:DB:2F:C2:48:BE" "Oral-B Toothbrush"
      sample_payload fresh = (st', Return tt) /\
    snap !! "toothbrush" = Some (PyInt 1).
Proof.
  assert (Hu : UNPACK_BBHBBBB (slice 3 11 sample_payload) =
               Return (3, 110, 1024, 1, 0, 1, 5)) by (vm_compute; reflexivity).
  split; [reflexivity |]. split; [exact Hu |].
  destruct (toothbrush_flag last_four "78:DB:2F:C2:48:BE" "Oral-B Toothbrush"
              sample_payload fresh _ _ _ _ _ _ _ eq_refl Hu)
    as (st' & snap & Hrun & _ & H3 & _).
  exists st', snap. split; [exact Hrun | exact (H3 eq_refl)].
Defined.

Lemma unknown_codes_labelled_witness :
  length odd_payload = 11%nat /\
  UNPACK_BBHBBBB (slice 3 11 odd_payload) = Return (7, 0, 42, 9, 5, 0, 4) /\
  STATES !! 7 = None /\
  PRESSURE !! 0 = None /\
  modes (DEVICE_TYPES (model_of (slice 4 7 odd_payload))) !! 9 = None /\
  exists (st' : store) (snap : gmap string pyval),
    _process_mfr_data last_four "78:DB:2F:C2:48:BE" "Oral-B Toothbrush"
      odd_payload fresh = (st', Return tt) /\
    dom snap = snapshot_keys /\
    snap !! "toothbrush state" = Some (PyStr "unknown state 7") /\
    snap !! "pressure" = Some (PyStr "unknown pressure 0") /\
    snap !! "mode" = Some (PyStr "unknown mode 9").
Proof.
  assert (Hu : UNPACK_BBHBBBB (slice 3 11 odd_payload) =
               Return (7, 0, 42, 9, 5, 0, 4)) by (vm_compute; reflexivity).
  assert (Hs : STATES !! 7 = None) by (vm_compute; reflexivity).
  assert (Hp : PRESSURE !! 0 = None) by (vm_compute; reflexivity).
  assert (Hm : modes (DEVICE_TYPES (model_of (slice 4 7 odd_payload))) !! 9 = None)
    by (vm_compute; reflexivity).
  split; [reflexivity |]. do 4 (split; [assumption |]).
  destruct (unknown_codes_labelled last_four "78:DB:2F:C2:48:BE" "Oral-B Toothbrush"
              odd_payload fresh _ _ _ _ _ _ _ eq_refl Hu)
    as (st' & snap & Hrun & _ & Hdom & Hst & Hpr & Hmo).
  exists st', snap.
  split; [exact Hrun |]. split; [exact Hdom |].
  split; [exact (Hst Hs) |]. split; [exact (Hpr Hp) | exact (Hmo Hm)].
Defined.

Lemma sector_label_witness :
  (length io7_payload = 11%nat /\
   UNPACK_BBHBBBB (slice 3 11 io7_payload) = Return (3, 6, 12907, 1, 254, 30, 4) /\
   exists (st' : store) (snap : gmap string pyval),
     _process_mfr_data last_four "78:DB:2F:C2:48:BE" "Oral-B Toothbrush"
       io7_payload fresh = (st', Return tt) /\
     snap !! "sector" = Some (PyStr "last sector")) /\
  (length odd_payload = 11%nat /\
   UNPACK_BBHBBBB (slice 3 11 odd_payload) = Return (7, 0, 42, 9, 5, 0, 4) /\
   exists (st' : store) (snap : gmap string pyval),
     _process_mfr_data last_four "78:DB:2F:C2:48:BE" "Oral-B Toothbrush"
       odd_payload fresh = (st', Return tt) /\
     snap !! "sector" = Some (PyStr "sector 5")).
Proof.
  assert (Hio : UNPACK_BBHBBBB (slice 3 11 io7_payload) =
                Return (3, 6, 12907, 1, 254, 30, 4)) by (vm_compute; reflexivity).
  assert (Hodd : UNPACK_BBHBBBB (slice 3 11 odd_payload) =
                 Return (7, 0, 42, 9, 5, 0, 4)) by (vm_compute; reflexivity).
  split; (split; [reflexivity |]); (split; [assumption |]).
  - destruct (sector_label last_four "78:DB:2F:C2:48:BE" "Oral-B Toothbrush"
                io7_payload fresh _ _ _ _ _ _ _ eq_refl Hio)
      as (st' & snap & Hrun & _ & H254 & _).
    exists st', snap. split; [exact Hrun | exact (H254 eq_refl)].
  - destruct (sector_label last_four "78:DB:2F:C2:48:BE" "Oral-B Toothbrush"
                odd_payload fresh _ _ _ _ _ _ _ eq_refl Hodd)
      as (st' & snap & Hrun & _ & _ & _ & Hother).
    exists st', snap. split; [exact Hrun |].
    apply Hother; lia.
Defined.

Lemma io_serial7_pressure_counter_witness :
  length io7_payload = 11%nat /\
  UNPACK_BBHBBBB (slice 3 11 io7_payload) = Return (3, 6, 12907, 1, 254, 30, 4) /\
  model_of (slice 4 7 io7_payload) = IOSerial7 /\
  exists (st' : store) (snap : gmap string pyval),
    _process_mfr_data last_four "78:DB:2F:C2:48:BE" "Oral-B Toothbrush"
      io7_payload fresh = (st', Return tt) /\
    id_device_type (self st') = Some "IO Serial 7" /\
    snapshots st' = (snapshots fresh ++ [snap])%list /\
    snap !! "pressure" = Some (PyStr "unknown pressure 6") /\
    snap !! "counter" = Some (PyInt 12907).
Proof.
  assert (Hu : UNPACK_BBHBBBB (slice 3 11 io7_payload) =
               Return (3, 6, 12907, 1, 254, 30, 4)) by (vm_compute; reflexivity).
  assert (Hm : model_of (slice 4 7 io7_payload) = IOSerial7) by reflexivity.
  split; [reflexivity |]. split; [exact Hu |]. split; [exact Hm |].
  exact (proj2 (proj2 (proj2
    (io_serial7_pressure_counter last_four "78:DB:2F:C2:48:BE" "Oral-B Toothbrush"
       io7_payload fresh _ _ _ _ _ _ _ eq_refl Hu Hm)))).
Defined.


(** * Further properties of the decoder *)

(** ** Octets and labels *)

Lemma all_bytes_complete (b : byte) : In b all_bytes.
Proof.
  assert (H : existsb (Byte.eqb b) all_bytes = true)
    by (destruct b; vm_compute; reflexivity).
  apply existsb_exists in H. destruct H as (x & Hin & Heq).
  apply Byte.byte_dec_bl in Heq. subst x. exact Hin.
Qed.

Lemma distinct_on_bytes_sound (f : byte -> string) :
  distinct_on_bytes f = true -> forall a b : byte, f a = f b -> a = b.
Proof.
  unfold distinct_on_bytes. intros H a b Hab.
  rewrite forallb_forall in H. specialize (H a (all_bytes_complete a)).
  rewrite forallb_forall in H. specialize (H b (all_bytes_complete b)).
  apply String.eqb_eq in Hab. rewrite Hab in H. simpl in H.
  apply Byte.byte_dec_bl. exact H.
Qed.

Lemma byte_val_inj (a b : byte) : byte_val a = byte_val b -> a = b.
Proof.
  unfold byte_val. intros H. apply N2Z.inj in H.
  pose proof (Byte.of_to_N a) as Ha. rewrite H, Byte.of_to_N in Ha.
  congruence.
Qed.

Lemma tb_state_of_inj (a b : byte) :
  tb_state_of (byte_val a) = tb_state_of (byte_val b) -> a = b.
Proof.
  apply (distinct_on_bytes_sound (fun x => tb_state_of (byte_val x))).
  vm_compute. reflexivity.
Qed.

Lemma tb_pressure_of_inj (a b : byte) :
  tb_pressure_of (byte_val a) = tb_pressure_of (byte_val b) -> a = b.
Proof.
  apply (distinct_on_bytes_sound (fun x => tb_pressure_of (byte_val x))).
  vm_compute. reflexivity.
Qed.

Lemma tb_mode_of_inj (model : Models) (a b : byte) :
  tb_mode_of model (byte_val a) = tb_mode_of model (byte_val b) -> a = b.
Proof.
  apply (distinct_on_bytes_sound (fun x => tb_mode_of model (byte_val x))).
  destruct model; vm_compute; reflexivity.
Qed.

Lemma tb_sector_of_inj (a b : byte) :
  tb_sector_of (byte_val a) = tb_sector_of (byte_val b) -> a = b.
Proof.
  apply (distinct_on_bytes_sound (fun x => tb_sector_of (byte_val x))).
  vm_compute. reflexivity.
Qed.

Lemma counter_bytes_inj (hi1 lo1 hi2 lo2 : byte) :
  256 * byte_val hi1 + byte_val lo1 = 256 * byte_val hi2 + byte_val lo2 ->
  hi1 = hi2 /\ lo1 = lo2.
Proof.
  intros H.
  pose proof (byte_val_range hi1). pose proof (byte_val_range lo1).
  pose proof (byte_val_range hi2). pose proof (byte_val_range lo2).
  split; apply byte_val_inj; lia.
Qed.

Lemma snapshot_as_list (t s p c m sec tm ns : pyval) :
  dict_update (dict_update ∅ [("toothbrush", t)])
    [ ("toothbrush state", s); ("pressure", p); ("counter", c); ("mode", m);
      ("sector", sec); ("sector timer", tm); ("number of sectors", ns) ] =
  list_to_map
    [ ("toothbrush", t); ("toothbrush state", s); ("pressure", p); ("counter", c);
      ("mode", m); ("sector", sec); ("sector timer", tm); ("number of sectors", ns) ].
Proof. vm_compute. reflexivity. Qed.

Lemma length_8_inv (buf : bytes) :
  length buf = 8%nat ->
  exists s p hi lo m sec t n, buf = [s; p; hi; lo; m; sec; t; n].
Proof.
  intros H.
  do 8 (destruct buf as [| ? buf]; [discriminate |]).
  destruct buf; [| discriminate].
  repeat eexists.
Qed.

Section FrameRuns.

Variable short_address : string -> string.

(** The run of the frame decoder on eleven given octets: the snapshot is
    the dict written out below, whatever the header octets, the address,
    the local name and the store. *)
Lemma frame_run_bytes (b0 b1 b2 s p hi lo m sec t n : byte)
      (addr local_name : string) (st : store) :
  exists st' : store,
    _process_mfr_data short_address addr local_name
      [b0; b1; b2; s; p; hi; lo; m; sec; t; n] st = (st', Return tt) /\
    snapshots st' =
      (snapshots st ++
       [ list_to_map
           [ ("toothbrush", PyInt (if bool_decide (byte_val s = 3) then 1 else 0));
             ("toothbrush state", PyStr (tb_state_of (byte_val s)));
             ("pressure", PyStr (tb_pressure_of (byte_val p)));
             ("counter", PyInt (256 * byte_val hi + byte_val lo));
             ("mode", PyStr (tb_mode_of (model_of [p; hi; lo]) (byte_val m)));
             ("sector", PyStr (tb_sector_of (byte_val sec)));
             ("sector timer", PyInt (byte_val t));
             ("number of sectors", PyInt (byte_val n)) ] ])%list /\
    self st' =
      {| id_manufacturer := id_manufacturer (self st);
         id_device_type := Some (device_type (DEVICE_TYPES (model_of [p; hi; lo])));
         id_device_name :=
           Some (device_type (DEVICE_TYPES (model_of [p; hi; lo])) +:+ " " +:+
                 short_address addr);
         id_title :=
           Some (device_type (DEVICE_TYPES (model_of [p; hi; lo])) +:+ " " +:+
                 short_address addr) |}.
Proof.
  unfold _process_mfr_data, bind, debug, lift.
  rewrite bool_decide_eq_true_2 by reflexivity. cbn [negb].
  change (slice 3 11 [b0; b1; b2; s; p; hi; lo; m; sec; t; n])
    with [s; p; hi; lo; m; sec; t; n].
  change (slice 4 7 [b0; b1; b2; s; p; hi; lo; m; sec; t; n]) with [p; hi; lo].
  rewrite UNPACK_BBHBBBB_bytes.
  cbn [set_device_type set_device_name set_title update_self self logged
       id_manufacturer id_device_type id_device_name id_title].
  eexists. split; [reflexivity |]. split; [| reflexivity].
  etransitivity.
  { eapply snapshots_logged_result; [reflexivity |]. apply snapshots_logged_bytes. }
  f_equal. f_equal.
  replace (if bool_decide (byte_val s = 3)
           then dict_update ∅ [("toothbrush", PyInt 1)]
           else dict_update ∅ [("toothbrush", PyInt 0)])
    with (dict_update ∅
            [("toothbrush", PyInt (if bool_decide (byte_val s = 3) then 1 else 0))])
    by (destruct (bool_decide (byte_val s = 3)); reflexivity).
  apply snapshot_as_list.
Qed.

End FrameRuns.

Lemma snapshot_list_shape (t s p c m sec tm ns : pyval) :
  let snap : gmap string pyval :=
    list_to_map
      [ ("toothbrush", t); ("toothbrush state", s); ("pressure", p); ("counter", c);
        ("mode", m); ("sector", sec); ("sector timer", tm); ("number of sectors", ns) ] in
  snap !! "toothbrush" = Some t /\
  snap !! "toothbrush state" = Some s /\
  snap !! "pressure" = Some p /\
  snap !! "counter" = Some c /\
  snap !! "mode" = Some m /\
  snap !! "sector" = Some sec /\
  snap !! "sector timer" = Some tm /\
  snap !! "number of sectors" = Some ns.
Proof. vm_compute. repeat split; reflexivity. Qed.

Lemma snapshot_list_inj (t s p c m sec tm ns t' s' p' c' m' sec' tm' ns' : pyval) :
  @list_to_map string pyval (gmap string pyval) _ _
    [ ("toothbrush", t); ("toothbrush state", s); ("pressure", p); ("counter", c);
      ("mode", m); ("sector", sec); ("sector timer", tm); ("number of sectors", ns) ] =
  list_to_map
    [ ("toothbrush", t'); ("toothbrush state", s'); ("pressure", p'); ("counter", c');
      ("mode", m'); ("sector", sec'); ("sector timer", tm');
      ("number of sectors", ns') ] ->
  t = t' /\ s = s' /\ p = p' /\ c = c' /\ m = m' /\ sec = sec' /\ tm = tm' /\ ns = ns'.
Proof.
  intros H.
  destruct (snapshot_list_shape t s p c m sec tm ns)
    as (H1 & H2 & H3 & H4 & H5 & H6 & H7 & H8).
  destruct (snapshot_list_shape t' s' p' c' m' sec' tm' ns')
    as (H1' & H2' & H3' & H4' & H5' & H6' & H7' & H8').
  rewrite H in H1, H2, H3, H4, H5, H6, H7, H8.
  repeat split; congruence.
Qed.

Lemma UNPACK_BBHBBBB_size_gate (buf : bytes) :
  (length buf = 8%nat -> exists fields, UNPACK_BBHBBBB buf = Return fields) /\
  (length buf <> 8%nat -> UNPACK_BBHBBBB buf = Raise StructError).
Proof.
  split; intros H.
  - destruct (length_8_inv buf H) as (s & p & hi & lo & m & sec & t & n & ->).
    eexists. apply UNPACK_BBHBBBB_bytes.
  - destruct (UNPACK_BBHBBBB buf) as [fields | e] eqn:E.
    + apply UNPACK_BBHBBBB_size in E. contradiction.
    + unfold UNPACK_BBHBBBB in E. repeat case_match; congruence.
Qed.

Lemma length_slice_3_11 (data : bytes) :
  length (slice 3 11 data) = (8 `min` (length data - 3))%nat.
Proof. unfold slice. rewrite length_take, length_drop. reflexivity. Qed.

(** ** Tables *)

(** X8: no mode code carries the same label in the mode tables of the two
    models. *)
Theorem mode_labels_differ_by_model (mode : Z) (l1 l2 : string) :
  modes (DEVICE_TYPES IOSerial7) !! mode = Some l1 ->
  modes (DEVICE_TYPES SmartSeries7000) !! mode = Some l2 ->
  l1 <> l2.
Proof.
  intros H1 H2.
  apply elem_of_list_to_map_2 in H1. apply elem_of_list_to_map_2 in H2.
  set_unfold. destruct_or!; simplify_eq; discriminate.
Qed.

Section FrameProperties.

Variable short_address : string -> string.

(** ** Unpacking behind the length guard *)

(** X6: unpacking [data[3:11]] succeeds exactly when the payload has at
    least 11 octets; on a shorter payload the slice is too short and
    [struct.error] is raised. *)
Theorem unpack_slice_needs_11 (data : bytes) :
  ((11 <= length data)%nat ->
     exists fields, UNPACK_BBHBBBB (slice 3 11 data) = Return fields) /\
  ((length data < 11)%nat ->
     UNPACK_BBHBBBB (slice 3 11 data) = Raise StructError).
Proof.
  split; intros H.
  - apply UNPACK_BBHBBBB_size_gate. rewrite length_slice_3_11. lia.
  - apply UNPACK_BBHBBBB_size_gate. rewrite length_slice_3_11. lia.
Qed.

(** ** The entry point *)

(** X1: [_start_update] raises [TypeError] on every record and every
    store: it has logged the record and set the manufacturer name by then,
    and neither emits a snapshot nor sets device type, device name or
    title. *)
Theorem start_update_always_raises (service_info : BluetoothServiceInfo) (st : store) :
  exists st' : store,
    _start_update short_address service_info st = (st', Raise TypeError) /\
    logged st' =
      (logged st ++
       [LogServiceInfo "Parsing OralB BLE advertisement data: %s" service_info])%list /\
    snapshots st' = snapshots st /\
    id_manufacturer (self st') = Some "OralB" /\
    id_device_type (self st') = id_device_type (self st) /\
    id_device_name (self st') = id_device_name (self st) /\
    id_title (self st') = id_title (self st).
Proof.
  eexists. split; [apply start_update_raises |].
  split; [reflexivity |].
  split; [apply snapshots_logged_info |].
  repeat split.
Qed.

(** ** Labels *)

(** X2: for an 11-byte payload, a state, pressure or mode code that is a
    key of its table is labelled with the table's entry. *)
Theorem known_codes_labelled (addr local_name : string) (data : bytes) (st : store)
        (state pressure counter mode sector sector_timer no_of_sectors : Z) :
  length data = 11%nat ->
  UNPACK_BBHBBBB (slice 3 11 data) =
    Return (state, pressure, counter, mode, sector, sector_timer, no_of_sectors) ->
  exists (st' : store) (snap : gmap string pyval),
    _process_mfr_data short_address addr local_name data st = (st', Return tt) /\
    snapshots st' = (snapshots st ++ [snap])%list /\
    (forall l, STATES !! state = Some l ->
       snap !! "toothbrush state" = Some (PyStr l)) /\
    (forall l, PRESSURE !! pressure = Some l ->
       snap !! "pressure" = Some (PyStr l)) /\
    (forall l, modes (DEVICE_TYPES (model_of (slice 4 7 data))) !! mode = Some l ->
       snap !! "mode" = Some (PyStr l)).
Proof.
  intros Hlen Hu.
  destruct (process_mfr_data_decoded short_address addr local_name data st
              _ _ _ _ _ _ _ Hlen Hu)
    as (st' & snap & Hrun & _ & Hsnaps & _ & _ & Hs & Hp & _ & Hm & _).
  exists st', snap. repeat (split; [assumption |]).
  unfold dict_get in Hs, Hp, Hm.
  split; [| split]; intros l H; rewrite H in *; assumption.
Qed.

(** X7: in the snapshot of an 11-byte payload the toothbrush flag is 1
    exactly when the state label is "running". *)
Theorem toothbrush_iff_running (addr local_name : string) (data : bytes) (st : store) :
  length data = 11%nat ->
  exists (st' : store) (snap : gmap string pyval),
    _process_mfr_data short_address addr local_name data st = (st', Return tt) /\
    snapshots st' = (snapshots st ++ [snap])%list /\
    (snap !! "toothbrush" = Some (PyInt 1) <->
     snap !! "toothbrush state" = Some (PyStr "running")).
Proof.
  intros Hlen.
  destruct (length_11_inv data Hlen)
    as (b0 & b1 & b2 & s & p & hi & lo & m & sec & t & n & ->).
  destruct (frame_run_bytes short_address b0 b1 b2 s p hi lo m sec t n addr local_name st)
    as (st' & Hrun & Hsnaps & _).
  eexists st', _. split; [exact Hrun |]. split; [exact Hsnaps |].
  match goal with
  | |- context [list_to_map [(_, ?v1); (_, ?v2); (_, ?v3); (_, ?v4);
                             (_, ?v5); (_, ?v6); (_, ?v7); (_, ?v8)]] =>
      destruct (snapshot_list_shape v1 v2 v3 v4 v5 v6 v7 v8) as (H1 & H2 & _)
  end.
  rewrite H1, H2. split; intros H.
  - injection H as H. case_bool_decide as E; [| discriminate].
    rewrite E. reflexivity.
  - injection H as H.
    change "running" with (tb_state_of (byte_val x03)) in H.
    apply tb_state_of_inj in H. subst s. reflexivity.
Qed.

End FrameProperties.

Section FrameSnapshots.

Variable short_address : string -> string.

(** ** Identity *)

(** X4: the frame decoder never touches the manufacturer name, whatever
    the payload; after an 11-byte payload the device type is one of the two
    model labels, and the device name and the title are both that label,
    a space and the shortened address. *)
Theorem frame_decoder_identity (addr local_name : string) (data : bytes) (st : store) :
  exists st' : store,
    _process_mfr_data short_address addr local_name data st = (st', Return tt) /\
    id_manufacturer (self st') = id_manufacturer (self st) /\
    (length data = 11%nat ->
       exists ty : string,
         (ty = "IO Serial 7" \/ ty = "Smart Series 7000") /\
         id_device_type (self st') = Some ty /\
         id_device_name (self st') = Some (ty +:+ " " +:+ short_address addr) /\
         id_title (self st') = Some (ty +:+ " " +:+ short_address addr)).
Proof.
  destruct (decide (length data = 11%nat)) as [Hlen | Hlen].
  - destruct (length_11_inv data Hlen)
      as (b0 & b1 & b2 & s & p & hi & lo & m & sec & t & n & ->).
    destruct (frame_run_bytes short_address b0 b1 b2 s p hi lo m sec t n
                addr local_name st) as (st' & Hrun & _ & Hself).
    exists st'. split; [exact Hrun |]. rewrite Hself.
    split; [reflexivity |]. intros _.
    exists (device_type (DEVICE_TYPES (model_of [p; hi; lo]))).
    split; [destruct (model_of [p; hi; lo]); [left | right]; reflexivity |].
    repeat split.
  - eexists. split; [apply process_mfr_data_dropped; exact Hlen |].
    split; [reflexivity |]. intros H. contradiction.
Qed.

(** ** Snapshots *)

(** X9: the snapshot of an 11-byte payload is exactly a dict of eight
    items: toothbrush is the int 0 or 1, counter an int in 0..65535, sector
    timer and number of sectors ints in 0..255, and state, pressure, mode and
    sector are strings. *)
Theorem snapshot_schema (addr local_name : string) (data : bytes) (st : store) :
  length data = 11%nat ->
  exists (st' : store) (tb counter sector_timer no_of_sectors : Z)
         (tb_state tb_pressure tb_mode tb_sector : string),
    _process_mfr_data short_address addr local_name data st = (st', Return tt) /\
    snapshots st' =
      (snapshots st ++
       [ list_to_map
           [ ("toothbrush", PyInt tb);
             ("toothbrush state", PyStr tb_state);
             ("pressure", PyStr tb_pressure);
             ("counter", PyInt counter);
             ("mode", PyStr tb_mode);
             ("sector", PyStr tb_sector);
             ("sector timer", PyInt sector_timer);
             ("number of sectors", PyInt no_of_sectors) ] ])%list /\
    (tb = 0 \/ tb = 1) /\
    0 <= counter <= 65535 /\
    0 <= sector_timer <= 255 /\
    0 <= no_of_sectors <= 255.
Proof.
  intros Hlen.
  destruct (length_11_inv data Hlen)
    as (b0 & b1 & b2 & s & p & hi & lo & m & sec & t & n & ->).
  destruct (frame_run_bytes short_address b0 b1 b2 s p hi lo m sec t n addr local_name st)
    as (st' & Hrun & Hsnaps & _).
  eexists st', _, _, _, _, _, _, _, _.
  split; [exact Hrun |]. split; [exact Hsnaps |].
  pose proof (byte_val_range hi). pose proof (byte_val_range lo).
  pose proof (byte_val_range t). pose proof (byte_val_range n).
  split; [case_bool_decide; [right | left]; reflexivity |].
  repeat split; lia.
Qed.

(** X3: the snapshot depends on bytes 3 to 10 of the payload only: two
    11-byte payloads that agree there yield the same snapshot, whatever
    their first three bytes, the addresses, the local names and the
    stores. *)
Theorem snapshot_ignores_header (addr1 local_name1 addr2 local_name2 : string)
        (data1 data2 : bytes) (st1 st2 : store) :
  length data1 = 11%nat ->
  length data2 = 11%nat ->
  slice 3 11 data1 = slice 3 11 data2 ->
  exists (st1' st2' : store) (snap : gmap string pyval),
    _process_mfr_data short_address addr1 local_name1 data1 st1 = (st1', Return tt) /\
    _process_mfr_data short_address addr2 local_name2 data2 st2 = (st2', Return tt) /\
    snapshots st1' = (snapshots st1 ++ [snap])%list /\
    snapshots st2' = (snapshots st2 ++ [snap])%list.
Proof.
  intros Hlen1 Hlen2 Hsl.
  destruct (length_11_inv data1 Hlen1)
    as (a0 & a1 & a2 & s & p & hi & lo & m & sec & t & n & ->).
  destruct (length_11_inv data2 Hlen2)
    as (b0 & b1 & b2 & s' & p' & hi' & lo' & m' & sec' & t' & n' & ->).
  injection Hsl as <- <- <- <- <- <- <- <-.
  destruct (frame_run_bytes short_address a0 a1 a2 s p hi lo m sec t n
              addr1 local_name1 st1) as (st1' & Hrun1 & Hsnaps1 & _).
  destruct (frame_run_bytes short_address b0 b1 b2 s p hi lo m sec t n
              addr2 local_name2 st2) as (st2' & Hrun2 & Hsnaps2 & _).
  eexists st1', st2', _. eauto.
Qed.

(** X5: the snapshot loses nothing of bytes 3 to 10: two 11-byte payloads
    that yield the same snapshot agree on those eight bytes. *)
Theorem snapshot_determines_fields (addr1 local_name1 addr2 local_name2 : string)
        (data1 data2 : bytes) (st1 st2 st1' st2' : store) (snap : gmap string pyval) :
  length data1 = 11%nat ->
  length data2 = 11%nat ->
  _process_mfr_data short_address addr1 local_name1 data1 st1 = (st1', Return tt) ->
  snapshots st1' = (snapshots st1 ++ [snap])%list ->
  _process_mfr_data short_address addr2 local_name2 data2 st2 = (st2', Return tt) ->
  snapshots st2' = (snapshots st2 ++ [snap])%list ->
  slice 3 11 data1 = slice 3 11 data2.
Proof.
  intros Hlen1 Hlen2 Hrun1 Hsnaps1 Hrun2 Hsnaps2.
  destruct (length_11_inv data1 Hlen1)
    as (a0 & a1 & a2 & s & p & hi & lo & m & sec & t & n & ->).
  destruct (length_11_inv data2 Hlen2)
    as (b0 & b1 & b2 & s' & p' & hi' & lo' & m' & sec' & t' & n' & ->).
  destruct (frame_run_bytes short_address a0 a1 a2 s p hi lo m sec t n
              addr1 local_name1 st1) as (x1 & Hx1 & Hs1 & _).
  destruct (frame_run_bytes short_address b0 b1 b2 s' p' hi' lo' m' sec' t' n'
              addr2 local_name2 st2) as (x2 & Hx2 & Hs2 & _).
  rewrite Hrun1 in Hx1. injection Hx1 as <-.
  rewrite Hrun2 in Hx2. injection Hx2 as <-.
  rewrite Hsnaps1 in Hs1. apply app_inv_head in Hs1. injection Hs1 as Hs1.
  rewrite Hsnaps2 in Hs2. apply app_inv_head in Hs2. injection Hs2 as Hs2.
  rewrite Hs1 in Hs2. apply snapshot_list_inj in Hs2.
  destruct Hs2 as (_ & Est & Epr & Ec & Emo & Esec & Et & En).
  injection Est as Est. apply tb_state_of_inj in Est.
  injection Epr as Epr. apply tb_pressure_of_inj in Epr.
  injection Ec as Ec. apply counter_bytes_inj in Ec. destruct Ec as [Ehi Elo].
  subst s' p' hi' lo'.
  injection Emo as Emo. apply tb_mode_of_inj in Emo.
  injection Esec as Esec. apply tb_sector_of_inj in Esec.
  injection Et as Et. apply byte_val_inj in Et.
  injection En as En. apply byte_val_inj in En.
  subst. reflexivity.
Qed.

(** X10: two 11-byte frames decoded one after the other leave both
    snapshots in arrival order, the second being the one the second frame
    yields on its own, and leave the identity that the second frame alone
    would leave. *)
Theorem frames_in_sequence (addrA local_nameA addrB local_nameB : string)
        (dataA dataB : bytes) (st : store) :
  length dataA = 11%nat ->
  length dataB = 11%nat ->
  exists (stA stAB stB : store) (snapA snapB : gmap string pyval),
    _process_mfr_data short_address addrA local_nameA dataA st = (stA, Return tt) /\
    _process_mfr_data short_address addrB local_nameB dataB stA = (stAB, Return tt) /\
    _process_mfr_data short_address addrB local_nameB dataB st = (stB, Return tt) /\
    snapshots stAB = (snapshots st ++ [snapA; snapB])%list /\
    snapshots stB = (snapshots st ++ [snapB])%list /\
    self stAB = self stB.
Proof.
  intros HlenA HlenB.
  destruct (length_11_inv dataA HlenA)
    as (a0 & a1 & a2 & s & p & hi & lo & m & sec & t & n & ->).
  destruct (length_11_inv dataB HlenB)
    as (b0 & b1 & b2 & s' & p' & hi' & lo' & m' & sec' & t' & n' & ->).
  destruct (frame_run_bytes short_address a0 a1 a2 s p hi lo m sec t n
              addrA local_nameA st) as (stA & HrunA & HsA & HselfA).
  destruct (frame_run_bytes short_address b0 b1 b2 s' p' hi' lo' m' sec' t' n'
              addrB local_nameB stA) as (stAB & HrunAB & HsAB & HselfAB).
  destruct (frame_run_bytes short_address b0 b1 b2 s' p' hi' lo' m' sec' t' n'
              addrB local_nameB st) as (stB & HrunB & HsB & HselfB).
  eexists stA, stAB, stB, _, _.
  split; [exact HrunA |]. split; [exact HrunAB |]. split; [exact HrunB |].
  split; [| split; [exact HsB |]].
  - rewrite HsAB, HsA, <- app_assoc. reflexivity.
  - rewrite HselfAB, HselfB, HselfA. reflexivity.
Qed.

End FrameSnapshots.

(** ** The further properties at concrete payloads *)

Lemma mode_labels_differ_by_model_witness :
  modes (DEVICE_TYPES IOSerial7) !! 1 = Some "sensitive" /\
  modes (DEVICE_TYPES SmartSeries7000) !! 1 = Some "daily clean" /\
  "sensitive" <> "daily clean".
Proof.
  assert (H1 : modes (DEVICE_TYPES IOSerial7) !! 1 = Some "sensitive")
    by (vm_compute; reflexivity).
  assert (H2 : modes (DEVICE_TYPES SmartSeries7000) !! 1 = Some "daily clean")
    by (vm_compute; reflexivity).
  split; [exact H1 |]. split; [exact H2 |].
  exact (mode_labels_differ_by_model 1 "sensitive" "daily clean" H1 H2).
Defined.

Lemma unpack_slice_needs_11_witness :
  ((11 <= length sample_payload)%nat /\
   exists fields, UNPACK_BBHBBBB (slice 3 11 sample_payload) = Return fields) /\
  ((length [x00; x00; x00; x03; x6e] < 11)%nat /\
   UNPACK_BBHBBBB (slice 3 11 [x00; x00; x00; x03; x6e]) = Raise StructError).
Proof.
  split.
  - assert (H : (11 <= length sample_payload)%nat) by (simpl; lia).
    split; [exact H |].
    exact (proj1 (unpack_slice_needs_11 sample_payload) H).
  - assert (H : (length [x00; x00; x00; x03; x6e] < 11)%nat) by (simpl; lia).
    split; [exact H |].
    exact (proj2 (unpack_slice_needs_11 [x00; x00; x00; x03; x6e]) H).
Defined.

Lemma known_codes_labelled_witness :
  length known_payload = 11%nat /\
  UNPACK_BBHBBBB (slice 3 11 known_payload) = Return (2, 114, 16, 5, 1, 15, 4) /\
  exists (st' : store) (snap : gmap string pyval),
    _process_mfr_data last_four "78:DB:2F:C2:48:BE" "Oral-B Toothbrush"
      known_payload fresh = (st', Return tt) /\
    snap !! "toothbrush state" = Some (PyStr "idle") /\
    snap !! "pressure" = Some (PyStr "normal") /\
    snap !! "mode" = Some (PyStr "deep clean").
Proof.
  assert (Hu : UNPACK_BBHBBBB (slice 3 11 known_payload) =
               Return (2, 114, 16, 5, 1, 15, 4)) by (vm_compute; reflexivity).
  split; [reflexivity |]. split; [exact Hu |].
  destruct (known_codes_labelled last_four "78:DB:2F:C2:48:BE" "Oral-B Toothbrush"
              known_payload fresh _ _ _ _ _ _ _ eq_refl Hu)
    as (st' & snap & Hrun & _ & Hs & Hp & Hm).
  exists st', snap. split; [exact Hrun |].
  split; [apply Hs; vm_compute; reflexivity |].
  split; [apply Hp; vm_compute; reflexivity | apply Hm; vm_compute; reflexivity].
Defined.

Lemma toothbrush_iff_running_witness :
  length sample_payload = 11%nat /\
  exists (st' : store) (snap : gmap string pyval),
    _process_mfr_data last_four "78:DB:2F:C2:48:BE" "Oral-B Toothbrush"
      sample_payload fresh = (st', Return tt) /\
    snapshots st' = (snapshots fresh ++ [snap])%list /\
    (snap !! "toothbrush" = Some (PyInt 1) <->
     snap !! "toothbrush state" = Some (PyStr "running")).
Proof.
  split; [reflexivity |].
  exact (toothbrush_iff_running last_four "78:DB:2F:C2:48:BE" "Oral-B Toothbrush"
           sample_payload fresh eq_refl).
Defined.

Lemma frame_decoder_identity_witness :
  length io7_payload = 11%nat /\
  exists st' : store,
    _process_mfr_data last_four "78:DB:2F:C2:48:BE" "Oral-B Toothbrush"
      io7_payload fresh = (st', Return tt) /\
    id_manufacturer (self st') = id_manufacturer (self fresh) /\
    exists ty : string,
      (ty = "IO Serial 7" \/ ty = "Smart Series 7000") /\
      id_device_type (self st') = Some ty /\
      id_device_name (self st') = Some (ty +:+ " " +:+ last_four "78:DB:2F:C2:48:BE") /\
      id_title (self st') = Some (ty +:+ " " +:+ last_four "78:DB:2F:C2:48:BE").
Proof.
  split; [reflexivity |].
  destruct (frame_decoder_identity last_four "78:DB:2F:C2:48:BE" "Oral-B Toothbrush"
              io7_payload fresh) as (st' & Hrun & Hm & Hid).
  exists st'. split; [exact Hrun |]. split; [exact Hm |]. exact (Hid eq_refl).
Defined.

Lemma snapshot_schema_witness :
  length sample_payload = 11%nat /\
  exists (st' : store) (tb counter sector_timer no_of_sectors : Z)
         (tb_state tb_pressure tb_mode tb_sector : string),
    _process_mfr_data last_four "78:DB:2F:C2:48:BE" "Oral-B Toothbrush"
      sample_payload fresh = (st', Return tt) /\
    snapshots st' =
      (snapshots fresh ++
       [ list_to_map
           [ ("toothbrush", PyInt tb);
             ("toothbrush state", PyStr tb_state);
             ("pressure", PyStr tb_pressure);
             ("counter", PyInt counter);
             ("mode", PyStr tb_mode);
             ("sector", PyStr tb_sector);
             ("sector timer", PyInt sector_timer);
             ("number of sectors", PyInt no_of_sectors) ] ])%list /\
    (tb = 0 \/ tb = 1) /\
    0 <= counter <= 65535 /\
    0 <= sector_timer <= 255 /\
    0 <= no_of_sectors <= 255.
Proof.
  split; [reflexivity |].
  exact (snapshot_schema last_four "78:DB:2F:C2:48:BE" "Oral-B Toothbrush"
           sample_payload fresh eq_refl).
Defined.

Lemma snapshot_ignores_header_witness :
  length sample_payload = 11%nat /\
  length [xaa; xbb; xcc; x03; x6e; x04; x00; x01; x00; x01; x05] = 11%nat /\
  slice 3 11 sample_payload =
    slice 3 11 [xaa; xbb; xcc; x03; x6e; x04; x00; x01; x00; x01; x05] /\
  exists (st1' st2' : store) (snap : gmap string pyval),
    _process_mfr_data last_four "78:DB:2F:C2:48:BE" "Oral-B Toothbrush"
      sample_payload fresh = (st1', Return tt) /\
    _process_mfr_data last_four "C4:7C:8D:6A:3E:7B" "Tracker"
      [xaa; xbb; xcc; x03; x6e; x04; x00; x01; x00; x01; x05] fresh =
      (st2', Return tt) /\
    snapshots st1' = (snapshots fresh ++ [snap])%list /\
    snapshots st2' = (snapshots fresh ++ [snap])%list.
Proof.
  split; [reflexivity |]. split; [reflexivity |]. split; [reflexivity |].
  exact (snapshot_ignores_header last_four "78:DB:2F:C2:48:BE" "Oral-B Toothbrush"
           "C4:7C:8D:6A:3E:7B" "Tracker" sample_payload
           [xaa; xbb; xcc; x03; x6e; x04; x00; x01; x00; x01; x05]
           fresh fresh eq_refl eq_refl eq_refl).
Defined.

Lemma snapshot_determines_fields_witness :
  length sample_payload = 11%nat /\
  length [xaa; xbb; xcc; x03; x6e; x04; x00; x01; x00; x01; x05] = 11%nat /\
  exists (st1' st2' : store) (snap : gmap string pyval),
    _process_mfr_data last_four "78:DB:2F:C2:48:BE" "Oral-B Toothbrush"
      sample_payload fresh = (st1', Return tt) /\
    snapshots st1' = (snapshots fresh ++ [snap])%list /\
    _process_mfr_data last_four "C4:7C:8D:6A:3E:7B" "Tracker"
      [xaa; xbb; xcc; x03; x6e; x04; x00; x01; x00; x01; x05] fresh =
      (st2', Return tt) /\
    snapshots st2' = (snapshots fresh ++ [snap])%list /\
    slice 3 11 sample_payload =
      slice 3 11 [xaa; xbb; xcc; x03; x6e; x04; x00; x01; x00; x01; x05].
Proof.
  split; [reflexivity |]. split; [reflexivity |].
  destruct (frame_run_bytes last_four x00 x00 x00 x03 x6e x04 x00 x01 x00 x01 x05
              "78:DB:2F:C2:48:BE" "Oral-B Toothbrush" fresh)
    as (st1' & Hrun1 & Hsnaps1 & _).
  destruct (frame_run_bytes last_four xaa xbb xcc x03 x6e x04 x00 x01 x00 x01 x05
              "C4:7C:8D:6A:3E:7B" "Tracker" fresh)
    as (st2' & Hrun2 & Hsnaps2 & _).
  eexists st1', st2', _.
  split; [exact Hrun1 |]. split; [exact Hsnaps1 |].
  split; [exact Hrun2 |]. split; [exact Hsnaps2 |].
  exact (snapshot_determines_fields last_four "78:DB:2F:C2:48:BE" "Oral-B Toothbrush"
           "C4:7C:8D:6A:3E:7B" "Tracker" sample_payload
           [xaa; xbb; xcc; x03; x6e; x04; x00; x01; x00; x01; x05]
           fresh fresh st1' st2' _ eq_refl eq_refl Hrun1 Hsnaps1 Hrun2 Hsnaps2).
Defined.

Lemma frames_in_sequence_witness :
  length sample_payload = 11%nat /\
  length io7_payload = 11%nat /\
  exists (stA stAB stB : store) (snapA snapB : gmap string pyval),
    _process_mfr_data last_four "78:DB:2F:C2:48:BE" "Oral-B Toothbrush"
      sample_payload fresh = (stA, Return tt) /\
    _process_mfr_data last_four "78:DB:2F:C2:48:BE" "Oral-B Toothbrush"
      io7_payload stA = (stAB, Return tt) /\
    _process_mfr_data last_four "78:DB:2F:C2:48:BE" "Oral-B Toothbrush"
      io7_payload fresh = (stB, Return tt) /\
    snapshots stAB = (snapshots fresh ++ [snapA; snapB])%list /\
    snapshots stB = (snapshots fresh ++ [snapB])%list /\
    self stAB = self stB.
Proof.
  split; [reflexivity |]. split; [reflexivity |].
  exact (frames_in_sequence last_four "78:DB:2F:C2:48:BE" "Oral-B Toothbrush"
           "78:DB:2F:C2:48:BE" "Oral-B Toothbrush" sample_payload io7_payload fresh
           eq_refl eq_refl).
Defined.
